(** * Multi-turn RAG chain: a shallow embedding of
      [create_bot_from_volume_folder/multi_turn_rag_chain.py]

    The chain is a fixed composition of LangChain runnables around two
    external collaborators, a chat model endpoint and a vector search
    index.  Collaborators are parameters of the development; every call
    made to them is appended to a trace kept in the process state, next to
    the one piece of configuration the code mutates in place
    ([retriever_config["parameters"]]).

    Text is [string]: a Python [str] whose code points are below 256. *)

From stdpp Require Import gmap strings list fin_maps.
From Stdlib Require Import Ascii String NArith.

Open Scope string_scope.

(** ** Python text primitives *)

Module PyStr.

(** [str.isspace] on one character, for code points below 256:
    TAB..CR, FS..US, SPACE, NEL and NBSP. *)
Definition isspace (c : ascii) : bool :=
  let n := N_of_ascii c in
  ((9 <=? n) && (n <=? 13) || (28 <=? n) && (n <=? 32)
   || (n =? 133) || (n =? 160))%N.

Fixpoint lstrip (s : string) : string :=
  match s with
  | EmptyString => EmptyString
  | String c rest => if isspace c then lstrip rest else s
  end.

Fixpoint rstrip (s : string) : string :=
  match s with
  | EmptyString => EmptyString
  | String c rest =>
      match rstrip rest with
      | EmptyString => if isspace c then EmptyString else String c EmptyString
      | kept => String c kept
      end
  end.

(** [s.strip()] *)
Definition strip (s : string) : string := rstrip (lstrip s).

End PyStr.

(** ** Data model *)

(** One element of [messages]: a dict with the keys ["role"] and
    ["content"]. *)
Record ChatTurn := { role : string; content : string }.

(** [langchain_core.messages] *)
Inductive message :=
| SystemMessage (c : string)
| HumanMessage (c : string)
| AIMessage (c : string).

(** What a prompt template hands to the model. *)
Inductive prompt_value :=
| StringPromptValue (text : string)
| ChatPromptValue (msgs : list message).

(** A retrieved [Document]. *)
Record Document := { page_content : string; metadata : gmap string string }.

(** Values of the retriever's [search_kwargs]: configuration scalars are
    kept as they are written, a filter is a mapping from field to value. *)
Inductive kwval :=
| Scalar (v : string)
| Mapping (m : gmap string string).

(** Exceptions: the two the chain's own code can raise, and whatever a
    collaborator or a configured template raises. *)
Inductive exn :=
| IndexError
| KeyError (key : string)
| Raised (what : string).

Inductive result (A : Type) :=
| Ok (a : A)
| Err (e : exn).
Arguments Ok {A} a.
Arguments Err {A} e.

(** The two retriever objects of the module: the module-level [retriever]
    and the one [get_retriever] builds on every call. *)
Inductive retriever_id := ModuleRetriever | FilteredRetriever.

Inductive event :=
| ModelCall (p : prompt_value)
| IndexSearch (r : retriever_id) (search_kwargs : gmap string kwval) (query : string)
| Printed (line : string).

(** Process state: the calls made so far, oldest first, and the dict
    [retriever_config["parameters"]].  That dict is one object: it is
    what the module-level [retriever] was given as [search_kwargs] when
    it was built, and what [get_retriever] fetches and writes its filter
    into. *)
Record world := { trace : list event; parameters : gmap string kwval }.

(** ** State and exception monad *)

Definition M (A : Type) : Type := world -> result A * world.

Definition ret {A} (a : A) : M A := fun w => (Ok a, w).

Definition bind {A B} (m : M A) (k : A -> M B) : M B :=
  fun w =>
    match m w with
    | (Ok a, w') => k a w'
    | (Err e, w') => (Err e, w')
    end.

Notation "x <- m ;; k" := (bind m (fun x => k))
  (at level 100, m at next level, right associativity).

Definition lift {A} (r : result A) : M A := fun w => (r, w).

Definition emit (e : event) : M unit :=
  fun w => (Ok tt, {| trace := trace w ++ [e]; parameters := parameters w |}).

(** Two branches of a [RunnableParallel]: every branch runs, and the
    first failure in key order is the one raised.  LangChain submits the
    branches to a thread pool, so their calls may come in either order;
    [par] is the schedule that takes them in key order, [par_scheduled]
    below has the other one too. *)
Definition par {A B} (ma : M A) (mb : M B) : M (A * B) :=
  fun w =>
    let (ra, w1) := ma w in
    let (rb, w2) := mb w1 in
    (match ra, rb with
     | Ok a, Ok b => Ok (a, b)
     | Err e, _ => Err e
     | Ok _, Err e => Err e
     end, w2).

(** [par] under either schedule: with [second_first] the second branch
    makes its calls before the first.  The results are collected, and the
    first failure raised, in key order all the same. *)
Definition par_scheduled {A B} (second_first : bool) (ma : M A) (mb : M B)
  : M (A * B) :=
  if second_first then
    fun w =>
      let (rb, w1) := mb w in
      let (ra, w2) := ma w1 in
      (match ra, rb with
       | Ok a, Ok b => Ok (a, b)
       | Err e, _ => Err e
       | Ok _, Err e => Err e
       end, w2)
  else par ma mb.

(** ** The dicts passed between the steps of the chain

    One record per dict literal of [chain], its fields named after the
    keys; [itemgetter] is the projection. *)

(** Output of the first step. *)
Module Parsed.
Record t := {
  question : string;
  chat_history : list ChatTurn;
  formatted_chat_history : list message }.
End Parsed.

(** Output of the second step. *)
Module Rephrased.
Record t := {
  rephrased_question : string;
  retriever : list Document;
  question : string;
  formatted_chat_history : list message }.
End Rephrased.

(** Argument [info] of [get_retriever]. *)
Module Info.
Record t := { rephrased_question : string; filter_value : string }.
End Info.

(** Input of [prompt]. *)
Module PromptInput.
Record t := {
  context : string;
  formatted_chat_history : list message;
  question : string }.
End PromptInput.

(** ** Helper functions *)

(** [chat_messages_array[-1]["content"]] *)
Definition extract_user_query_string (chat_messages_array : list ChatTurn)
  : result string :=
  match last chat_messages_array with
  | Some m => Ok (content m)
  | None => Err IndexError
  end.

(** [chat_messages_array[:-1]] *)
Definition extract_chat_history (chat_messages_array : list ChatTurn)
  : list ChatTurn :=
  take (List.length chat_messages_array - 1) chat_messages_array.

(** One round of the loop body of [format_chat_history_for_prompt]. *)
Definition append_chat_message (formatted : list message) (chat_message : ChatTurn)
  : list message :=
  if (role chat_message =? "user")%string then
    formatted ++ [HumanMessage (content chat_message)]
  else if (role chat_message =? "assistant")%string then
    formatted ++ [AIMessage (content chat_message)]
  else formatted.

Definition format_chat_history_for_prompt (chat_messages_array : list ChatTurn)
  : list message :=
  let history := extract_chat_history chat_messages_array in
  if (0 <? List.length history)%nat then fold_left append_chat_message history []
  else [].

(** [StrOutputParser()]: the text of the model's message, as it is. *)
Definition StrOutputParser (text : string) : string := text.

(** ** Prompt templates of the module *)

Definition query_rewrite_template (chat_history question : string) : string :=
  "Based on the chat history below, we want you to generate a query for an external data source to retrieve relevant documents so that we can better answer the question. The query should be in natural language. The external data source uses similarity search to search for relevant documents in a vector space. So the query should be similar to the relevant documents semantically. Answer with only the query. Do not add explanation.

Chat history: " +:+ chat_history +:+ "

Question: " +:+ question.

Definition get_topic_template (question : string) : string :=
  "Based on the question provieded by the users classify the topic in one of below categories delimited by a comma only provide the classification and no other text.
--- list of topics
cancer vaccines,stem cell therapy,cellular reprogramming
--- end list of topics
Question: " +:+ question.

Definition get_topic_prompt (question : string) : prompt_value :=
  StringPromptValue (get_topic_template question).

(** ** The chain *)

Section Chain.

(** [model | StrOutputParser()] up to the parser: the endpoint's reply
    to a prompt, as text. *)
Variable model : prompt_value -> result string.

(** The vector search index behind a retriever: what a search with the
    given [search_kwargs] and query returns to the retriever asking. *)
Variable vs_index :
  retriever_id -> gmap string kwval -> string -> result (list Document).

(** [retriever_config.get("chunk_template").format(chunk_text=...,
    document_uri=...)] *)
Variable chunk_template : string -> string -> result string.

(** [llm_config.get("llm_system_prompt_template")], formatted with the
    variables given to [prompt]. *)
Variable llm_system_prompt_template : PromptInput.t -> result string.

(** [vector_search_schema.get("title")] *)
Variable title_column : string.

(** Python's [str] of a list of message dicts, as [PromptTemplate]
    interpolates [chat_history]. *)
Variable str_of_messages : list ChatTurn -> string.

Definition query_rewrite_prompt (x : Parsed.t) : prompt_value :=
  StringPromptValue
    (query_rewrite_template (str_of_messages (Parsed.chat_history x))
                            (Parsed.question x)).

Definition invoke_model (p : prompt_value) : M string :=
  _ <- emit (ModelCall p) ;;
  lift (model p).

(** [retriever.invoke(query)] of a retriever holding [search_kwargs]. *)
Definition invoke_retriever (r : retriever_id)
    (search_kwargs : gmap string kwval) (query : string) : M (list Document) :=
  _ <- emit (IndexSearch r search_kwargs query) ;;
  lift (vs_index r search_kwargs query).

(** The module-level [retriever] where the library keeps the dict it is
    given: its [search_kwargs] is [retriever_config["parameters"]]
    itself.  Whether the library keeps or copies the dict is not decided
    by this file; [retriever_holding] below leaves it open. *)
Definition retriever (query : string) : M (list Document) :=
  fun w => invoke_retriever ModuleRetriever (parameters w) query w.

(** [kwargs = retriever_config.get("parameters");
     kwargs['filter'] = {'topic': value}] *)
Definition set_filter (value : string) : M (gmap string kwval) :=
  fun w =>
    let kwargs := <["filter" := Mapping {["topic" := value]}]> (parameters w) in
    (Ok kwargs, {| trace := trace w; parameters := kwargs |}).

Definition get_retriever (info : Info.t) : M (list Document) :=
  _ <- emit (Printed ("filter_value: " +:+ Info.filter_value info +:+ "
")) ;;
  kwargs <- set_filter (PyStr.strip (Info.filter_value info)) ;;
  invoke_retriever FilteredRetriever kwargs (Info.rephrased_question info).

(** The list comprehension of [format_context]. *)
Fixpoint chunk_contents (docs : list Document) : result (list string) :=
  match docs with
  | [] => Ok []
  | d :: rest =>
      match metadata d !! title_column with
      | None => Err (KeyError title_column)
      | Some title =>
          match chunk_template (page_content d) title with
          | Err e => Err e
          | Ok chunk =>
              match chunk_contents rest with
              | Err e => Err e
              | Ok chunks => Ok (chunk :: chunks)
              end
          end
      end
  end.

Definition format_context (docs : list Document) : result string :=
  match chunk_contents docs with
  | Ok chunks => Ok (String.concat EmptyString chunks)
  | Err e => Err e
  end.

(** [ChatPromptTemplate.from_messages]: system message, the history
    placeholder, the user's question. *)
Definition prompt (x : PromptInput.t) : result prompt_value :=
  match llm_system_prompt_template x with
  | Err e => Err e
  | Ok system =>
      Ok (ChatPromptValue
            (SystemMessage system
             :: PromptInput.formatted_chat_history x
             ++ [HumanMessage (PromptInput.question x)]))
  end.

(** First step: the three views of ["messages"]. *)
Definition parse_step (messages : list ChatTurn) : M Parsed.t :=
  r <- par (lift (extract_user_query_string messages))
           (par (ret (extract_chat_history messages))
                (ret (format_chat_history_for_prompt messages))) ;;
  ret {| Parsed.question := r.1;
         Parsed.chat_history := r.2.1;
         Parsed.formatted_chat_history := r.2.2 |}.

(** The [RunnableBranch] under the key ["rephrased_question"]. *)
Definition rephrase (x : Parsed.t) : M string :=
  if (0 <? List.length (Parsed.chat_history x))%nat then
    text <- invoke_model (query_rewrite_prompt x) ;;
    ret (StrOutputParser text)
  else ret (Parsed.question x).

(** Second step. *)
Definition rephrase_step (x : Parsed.t) : M Rephrased.t :=
  r <- par (rephrase x)
           (par (retriever (Parsed.question x))
                (par (ret (Parsed.question x))
                     (ret (Parsed.formatted_chat_history x)))) ;;
  ret {| Rephrased.rephrased_question := r.1;
         Rephrased.retriever := r.2.1;
         Rephrased.question := r.2.2.1;
         Rephrased.formatted_chat_history := r.2.2.2 |}.

(** The topic classifier: the value under ["filter_value"]. *)
Definition classify (query : string) : M string :=
  text <- invoke_model (get_topic_prompt query) ;;
  ret (StrOutputParser text).

(** The value under ["context"]. *)
Definition context_of (x : Rephrased.t) : M string :=
  r <- par (ret (Rephrased.rephrased_question x))
           (classify (Rephrased.rephrased_question x)) ;;
  docs <- get_retriever {| Info.rephrased_question := r.1;
                           Info.filter_value := r.2 |} ;;
  lift (format_context docs).

(** Third step. *)
Definition context_step (x : Rephrased.t) : M PromptInput.t :=
  r <- par (context_of x)
           (par (ret (Rephrased.formatted_chat_history x))
                (ret (Rephrased.question x))) ;;
  ret {| PromptInput.context := r.1;
         PromptInput.formatted_chat_history := r.2.1;
         PromptInput.question := r.2.2 |}.

(** [prompt | model | StrOutputParser()] *)
Definition generate (x : PromptInput.t) : M string :=
  p <- lift (prompt x) ;;
  text <- invoke_model p ;;
  ret (StrOutputParser text).

(** [chain.invoke({"messages": messages})] *)
Definition chain (messages : list ChatTurn) : M string :=
  x <- parse_step messages ;;
  y <- rephrase_step x ;;
  z <- context_step y ;;
  generate z.

(** *** The chain under every schedule and either library behaviour

    Two things the source leaves to the library.  [held] gives what the
    module-level retriever holds as [search_kwargs] from what the shared
    parameters contain: the identity where the dict is kept by reference,
    a constant where it was copied when the retriever was built.
    [search_first] tells whether, in the second step, the module-level
    search is issued before the rewriting call; in the other parallel
    steps at most one branch calls a collaborator, so their schedule
    does not show. *)

Definition retriever_holding (held : gmap string kwval -> gmap string kwval)
    (query : string) : M (list Document) :=
  fun w => invoke_retriever ModuleRetriever (held (parameters w)) query w.

Definition rephrase_step_general (held : gmap string kwval -> gmap string kwval)
    (search_first : bool) (x : Parsed.t) : M Rephrased.t :=
  r <- par_scheduled search_first
         (rephrase x)
         (par (retriever_holding held (Parsed.question x))
              (par (ret (Parsed.question x))
                   (ret (Parsed.formatted_chat_history x)))) ;;
  ret {| Rephrased.rephrased_question := r.1;
         Rephrased.retriever := r.2.1;
         Rephrased.question := r.2.2.1;
         Rephrased.formatted_chat_history := r.2.2.2 |}.

Definition chain_general (held : gmap string kwval -> gmap string kwval)
    (search_first : bool) (messages : list ChatTurn) : M string :=
  x <- parse_step messages ;;
  y <- rephrase_step_general held search_first x ;;
  z <- context_step y ;;
  generate z.

End Chain.

(** ** Reading the formatted history and the classifier's output *)

(** The message a turn becomes in the formatted history, if any. *)
Definition message_of_turn (t : ChatTurn) : option message :=
  if (role t =? "user")%string then Some (HumanMessage (content t))
  else if (role t =? "assistant")%string then Some (AIMessage (content t))
  else None.

(** The labels listed in [get_topic_template]. *)
Definition topic_labels : list string :=
  ["cancer vaccines"; "stem cell therapy"; "cellular reprogramming"].

(** Lower-casing of the letters A to Z.  The labels are lower-case
    letters and spaces and none holds [ss], so on text of code points
    below 256 folding case and comparing with a label amounts to this. *)
Definition lower (c : ascii) : ascii :=
  let n := N_of_ascii c in
  if ((65 <=? n) && (n <=? 90))%N then ascii_of_N (n + 32) else c.

Fixpoint casefold (s : string) : string :=
  match s with
  | EmptyString => EmptyString
  | String c rest => String (lower c) (casefold rest)
  end.

(** Whether a classifier output is one of the labels once trimmed and
    case-folded. *)
Definition matches_topic_label (output : string) : bool :=
  existsb (String.eqb (casefold (PyStr.strip output))) topic_labels.

(** ** A sample deployment

    Concrete collaborators and configuration, used to run the chain. *)

Module Sample.

Definition rewritten : string := " How does Spark scale out? ".

Definition answer : string := "Spark scales out by adding executors.".

(** An endpoint that rewrites to [rewritten], names [topic] as the
    topic, and answers every chat prompt with [answer]. *)
Definition model (topic : string) (p : prompt_value) : result string :=
match p with
| StringPromptValue text =>
    if String.prefix "Based on the chat history" text then Ok rewritten
    else Ok topic
| ChatPromptValue _ => Ok answer
end.

Definition chunk : Document :=
  {| page_content := "Executors run tasks.";
     metadata := {[ "title" := "Spark internals"; "topic" := "spark" ]} |}.

Definition other_chunk : Document :=
  {| page_content := "A driver schedules stages.";
     metadata := {[ "title" := "Spark overview" ]} |}.

(** An index whose answer to the module-level retriever is [extra]. *)
Definition vs_index (extra : list Document) (r : retriever_id)
    (search_kwargs : gmap string kwval) (query : string)
  : result (list Document) :=
  match r with
  | ModuleRetriever => Ok extra
  | FilteredRetriever => Ok [chunk; other_chunk]
  end.

Definition chunk_template (chunk_text document_uri : string) : result string :=
  Ok ("Passage: " +:+ chunk_text +:+ "
Document URI: " +:+ document_uri +:+ "
").

Definition llm_system_prompt_template (x : PromptInput.t) : result string :=
  Ok ("Answer from the context. Context: " +:+ PromptInput.context x).

Definition str_of_turn (t : ChatTurn) : string :=
  "{'role': '" +:+ role t +:+ "', 'content': '" +:+ content t +:+ "'}".

(** [str] of a list of turns whose text needs no escaping. *)
Definition str_of_messages (turns : list ChatTurn) : string :=
  "[" +:+ String.concat ", " (map str_of_turn turns) +:+ "]".

(** A state to start from: nothing called yet, and parameters that
    carry no filter. *)
Definition loaded : world :=
  {| trace := []; parameters := {[ "k" := Scalar "5" ]} |}.

Definition chain (topic : string) (extra : list Document)
  : list ChatTurn -> M string :=
chain (model topic) (vs_index extra) chunk_template llm_system_prompt_template
      "title" str_of_messages.

(** Parameters configured with a filter of their own. *)
Definition configured_filter : gmap string kwval :=
{[ "k" := Scalar "5";
   "filter" := Mapping {[ "topic" := "stem cell therapy" ]} ]}.

Definition single_turn : list ChatTurn :=
  [ {| role := "user"; content := "What is spark?" |} ].

Definition multi_turn : list ChatTurn :=
  [ {| role := "user"; content := "What is spark?" |};
    {| role := "assistant"; content := "Spark is a distributed compute engine." |};
    {| role := "user"; content := "How does it scale?" |} ].

End Sample.

(** ** Collaborators that fail *)

Module Outage.

Definition timeout : exn := Raised "TimeoutError".

(** An endpoint that does not answer. *)
Definition model (p : prompt_value) : result string := Err timeout.

(** An index that answers the filtered retriever only. *)
Definition vs_index (r : retriever_id) (search_kwargs : gmap string kwval)
    (query : string) : result (list Document) :=
match r with
| ModuleRetriever => Err timeout
| FilteredRetriever => Ok [Sample.chunk]
end.

(** A chunk that came back without its title column. *)
Definition untitled_chunk : Document :=
{| page_content := "Shuffles move data between stages.";
   metadata := {[ "topic" := "spark" ]} |}.

End Outage.

(** ** The ends of a text *)

Definition first_char (s : string) : option ascii :=
  match s with
  | EmptyString => None
  | String c _ => Some c
  end.

Fixpoint last_char (s : string) : option ascii :=
  match s with
  | EmptyString => None
  | String c EmptyString => Some c
  | String _ rest => last_char rest
  end.

(** Whether a text starts or ends with whitespace. *)
Definition outer_space (s : string) : bool :=
  from_option PyStr.isspace false (first_char s)
  || from_option PyStr.isspace false (last_char s).

(** Whether a text is whitespace throughout. *)
Fixpoint all_space (s : string) : bool :=
  match s with
  | EmptyString => true
  | String c rest => PyStr.isspace c && all_space rest
  end.

(** ** The text primitives at work *)

Example strip_examples :
  PyStr.strip "  cancer vaccines
" = "cancer vaccines"
  /\ PyStr.strip "stem cell  therapy" = "stem cell  therapy"
  /\ PyStr.strip "   " = EmptyString.
Proof. repeat split. Qed.

Example matches_topic_label_examples :
  matches_topic_label "cancer vaccines" = true
  /\ matches_topic_label " Cancer Vaccines
" = true
  /\ matches_topic_label "cancer vaccines." = false
  /\ matches_topic_label "I'm not sure" = false.
Proof. repeat split. Qed.

(** ** Facts about the helper functions *)

Lemma extract_chat_history_snoc (history : list ChatTurn) (last_turn : ChatTurn) :
  extract_chat_history (history ++ [last_turn]) = history.
Proof.
  unfold extract_chat_history.
  rewrite length_app. simpl.
  replace (List.length history + 1 - 1) with (List.length history) by lia.
  by rewrite take_app_length.
Qed.

Lemma extract_user_query_string_snoc (history : list ChatTurn) (last_turn : ChatTurn) :
  extract_user_query_string (history ++ [last_turn]) = Ok (content last_turn).
Proof. unfold extract_user_query_string. by rewrite last_snoc. Qed.

Lemma fold_append_chat_message (history : list ChatTurn) (formatted : list message) :
  fold_left append_chat_message history formatted
  = (formatted ++ omap message_of_turn history)%list.
Proof.
  revert formatted.
  induction history as [|t history IH]; intros formatted; simpl.
  - by rewrite app_nil_r.
  - rewrite IH. unfold append_chat_message, message_of_turn.
    destruct (role t =? "user")%string; [by rewrite <- app_assoc|].
    destruct (role t =? "assistant")%string; [by rewrite <- app_assoc|done].
Qed.

Lemma format_chat_history_omap (messages : list ChatTurn) :
  format_chat_history_for_prompt messages
  = omap message_of_turn (extract_chat_history messages).
Proof.
  unfold format_chat_history_for_prompt.
  destruct (extract_chat_history messages) as [|t history] eqn:E; [done|].
  cbv zeta. change (0 <? List.length (t :: history))%nat with true.
  cbv iota. by rewrite fold_append_chat_message.
Qed.

Lemma parse_step_snoc (history : list ChatTurn) (last_turn : ChatTurn) (w : world) :
  parse_step (history ++ [last_turn]) w
  = (Ok {| Parsed.question := content last_turn;
           Parsed.chat_history := history;
           Parsed.formatted_chat_history := omap message_of_turn history |}, w).
Proof.
  unfold parse_step, bind, par, lift, ret.
  rewrite extract_user_query_string_snoc, format_chat_history_omap,
    extract_chat_history_snoc.
  reflexivity.
Qed.

Lemma omap_message_of_turn_valid (history : list ChatTurn) :
  Forall (fun t => role t = "user" \/ role t = "assistant") history ->
  omap message_of_turn history
  = map (fun t => if (role t =? "user")%string then HumanMessage (content t)
                  else AIMessage (content t)) history.
Proof.
  induction 1 as [|t history Ht _ IH]; [done|].
  cbn [map]. rewrite <- IH.
  change (omap message_of_turn (t :: history))
    with (match message_of_turn t with
          | Some m => m :: omap message_of_turn history
          | None => omap message_of_turn history
          end).
  unfold message_of_turn at 1.
  destruct Ht as [-> | ->]; reflexivity.
Qed.

Lemma omap_message_of_turn_other (t : ChatTurn) :
  role t <> "user" -> role t <> "assistant" -> message_of_turn t = None.
Proof.
  intros Hu Ha. unfold message_of_turn.
  apply String.eqb_neq in Hu, Ha. by rewrite Hu, Ha.
Qed.

Lemma concat_empty_sep (chunks : list string) :
  String.concat EmptyString chunks = foldr String.append EmptyString chunks.
Proof.
  induction chunks as [|c [|c' chunks] IH]; simpl in *.
  - reflexivity.
  - clear IH. induction c as [|a c IHc]; [reflexivity|].
    change (String a c = String a (String.append c EmptyString)).
    by rewrite <- IHc.
  - by rewrite IH.
Qed.

(** ** Input normalisation *)

(** C2, as the code has it: the first step fails, with Python's
    [IndexError], on the empty conversation only; on every other
    conversation, whatever the role of its last turn, it yields the last
    turn's content as the question and all turns before it as the
    history. *)
Theorem parse_step_splits_last_turn (w : world) :
  parse_step [] w = (Err IndexError, w)
  /\ forall (history : list ChatTurn) (last_turn : ChatTurn),
       parse_step (history ++ [last_turn]) w
       = (Ok {| Parsed.question := content last_turn;
                Parsed.chat_history := history;
                Parsed.formatted_chat_history :=
                  format_chat_history_for_prompt (history ++ [last_turn]) |}, w).
Proof.
  split; [reflexivity|].
  intros history last_turn.
  rewrite parse_step_snoc, format_chat_history_omap, extract_chat_history_snoc.
  reflexivity.
Qed.

(** C2 fails on the code: a conversation that ends with an assistant turn
    is accepted, its last turn taken as the question, and the chain runs
    to an answer. *)
Lemma assistant_last_turn_is_accepted :
  let conversation :=
    [ {| role := "user"; content := "What is spark?" |};
      {| role := "assistant"; content := "Spark is a distributed compute engine." |} ] in
  (role <$> last conversation) = Some "assistant"
  /\ parse_step conversation Sample.loaded
     = (Ok {| Parsed.question := "Spark is a distributed compute engine.";
              Parsed.chat_history := [ {| role := "user"; content := "What is spark?" |} ];
              Parsed.formatted_chat_history := [ HumanMessage "What is spark?" ] |},
        Sample.loaded)
  /\ (Sample.chain "cancer vaccines" [] conversation Sample.loaded).1
     = Ok Sample.answer.
Proof. vm_compute. done. Qed.

(** ** History formatting *)

(** C8: when every turn before the last has role [user] or [assistant],
    the formatted history is those turns, one message each, in the same
    order, with the content untouched and the role read as the message
    type. *)
Theorem formatted_history_keeps_every_turn (messages : list ChatTurn) :
  Forall (fun t => role t = "user" \/ role t = "assistant")
         (extract_chat_history messages) ->
  format_chat_history_for_prompt messages
  = map (fun t => if (role t =? "user")%string then HumanMessage (content t)
                  else AIMessage (content t))
        (extract_chat_history messages).
Proof.
  intros Hroles.
  rewrite format_chat_history_omap.
  by apply omap_message_of_turn_valid.
Qed.

Lemma formatted_history_keeps_every_turn_sample :
  format_chat_history_for_prompt Sample.multi_turn
  = [ HumanMessage "What is spark?";
      AIMessage "Spark is a distributed compute engine." ].
Proof.
  rewrite (formatted_history_keeps_every_turn Sample.multi_turn).
  - reflexivity.
  - vm_compute.
    repeat (constructor; [(left; reflexivity) || (right; reflexivity)|]).
    constructor.
Defined.

(** ** Context formatting *)

Section Formatting.

Variable chunk_template : string -> string -> result string.
Variable title_column : string.

Lemma chunk_contents_rendered (docs : list Document) (chunks : list string) :
  Forall2 (fun d chunk =>
             exists title, metadata d !! title_column = Some title
                           /\ chunk_template (page_content d) title = Ok chunk)
          docs chunks ->
  chunk_contents chunk_template title_column docs = Ok chunks.
Proof.
  induction 1 as [|d chunk docs chunks (title & Ht & Hc) _ IH]; simpl.
  - reflexivity.
  - by rewrite Ht, Hc, IH.
Qed.

(** C7: the context is the template's rendering of each chunk's text
    and title, concatenated in the order of the chunks with nothing in
    between; no chunks give the empty string. *)
Theorem format_context_concatenates :
  format_context chunk_template title_column [] = Ok EmptyString
  /\ forall (docs : list Document) (chunks : list string),
       Forall2 (fun d chunk =>
                  exists title, metadata d !! title_column = Some title
                                /\ chunk_template (page_content d) title = Ok chunk)
               docs chunks ->
       format_context chunk_template title_column docs
       = Ok (foldr String.append EmptyString chunks).
Proof.
  split; [reflexivity|].
  intros docs chunks Hrendered. unfold format_context.
  rewrite (chunk_contents_rendered _ _ Hrendered).
  by rewrite concat_empty_sep.
Qed.

End Formatting.

Lemma format_context_concatenates_sample :
  format_context Sample.chunk_template "title" [Sample.chunk; Sample.other_chunk]
  = Ok "Passage: Executors run tasks.
Document URI: Spark internals
Passage: A driver schedules stages.
Document URI: Spark overview
".
Proof.
  apply (proj2 (format_context_concatenates Sample.chunk_template "title")
               [Sample.chunk; Sample.other_chunk]
               [ "Passage: Executors run tasks.
Document URI: Spark internals
"; "Passage: A driver schedules stages.
Document URI: Spark overview
" ]).
  repeat constructor.
  - exists "Spark internals". split; vm_compute; reflexivity.
  - exists "Spark overview". split; vm_compute; reflexivity.
Defined.

(** ** The chain, step by step *)

(** [unfold_chain] unfolds the monad and the steps of the chain;
    [simpl_chain] reduces what a known reply or a built record lets
    reduce, leaving the collaborators' replies to be examined. *)
Ltac unfold_chain :=
  cbv beta iota zeta delta
    [chain parse_step rephrase_step context_step context_of generate classify
     get_retriever retriever invoke_retriever invoke_model set_filter rephrase
     bind par lift ret emit StrOutputParser].

Ltac simpl_chain :=
  cbn [fst snd trace parameters
       Parsed.question Parsed.chat_history Parsed.formatted_chat_history
       Rephrased.rephrased_question Rephrased.retriever Rephrased.question
       Rephrased.formatted_chat_history Info.rephrased_question Info.filter_value
       PromptInput.context PromptInput.formatted_chat_history PromptInput.question].

Ltac run_chain := unfold_chain; simpl_chain.

(** Case analysis on the innermost reply the goal is waiting for. *)
Ltac destruct_reply :=
  match goal with
  | |- context [match ?r with Ok _ => _ | Err _ => _ end] =>
      lazymatch r with
      | context [match _ with Ok _ => _ | Err _ => _ end] => fail
      | _ => let E := fresh "E" in destruct r eqn:E; simpl_chain
      end
  end.

Section Pipeline.

Variable model : prompt_value -> result string.
Variable vs_index :
  retriever_id -> gmap string kwval -> string -> result (list Document).
Variable chunk_template : string -> string -> result string.
Variable llm_system_prompt_template : PromptInput.t -> result string.
Variable title_column : string.
Variable str_of_messages : list ChatTurn -> string.

Local Abbreviation rephrase' := (rephrase model str_of_messages).
Local Abbreviation query_rewrite_prompt' := (query_rewrite_prompt str_of_messages).
Local Abbreviation context_of' :=
  (context_of model vs_index chunk_template title_column).
Local Abbreviation format_context' := (format_context chunk_template title_column).
Local Abbreviation chain' :=
  (chain model vs_index chunk_template llm_system_prompt_template
         title_column str_of_messages).

(** *** Query rewriting *)

(** C3: with a single turn there is no history, and the rewriter
    returns the turn's content as it is without touching the state: no
    event is recorded, so no model call is made. *)
Theorem rephrase_single_turn_passthrough (turn : ChatTurn) (w : world) :
  exists x : Parsed.t,
    parse_step [turn] w = (Ok x, w)
    /\ Parsed.chat_history x = []
    /\ rephrase' x w = (Ok (content turn), w).
Proof.
  eexists. split; [apply (parse_step_snoc [] turn w)|].
  split; reflexivity.
Qed.

(** C5, as the code has it: with at least one turn before the last, the
    rewriter records exactly one event, a model call on the rewriting
    prompt, and its result is the model's reply to that prompt,
    character for character. *)
Theorem rephrase_one_call_reply_untouched
    (first : ChatTurn) (rest : list ChatTurn) (last_turn : ChatTurn) (w : world) :
  exists x : Parsed.t,
    parse_step (first :: rest ++ [last_turn])%list w = (Ok x, w)
    /\ Parsed.chat_history x = first :: rest
    /\ rephrase' x w
       = (model (query_rewrite_prompt' x),
          {| trace := trace w ++ [ModelCall (query_rewrite_prompt' x)];
             parameters := parameters w |}).
Proof.
  eexists. split; [apply (parse_step_snoc (first :: rest) last_turn w)|].
  split; [reflexivity|].
  run_chain. cbn [List.length Nat.ltb Nat.leb].
  by destruct (model _).
Qed.

(** C10: a turn before the last whose role is neither [user] nor
    [assistant] leaves no message in the formatted history, the other
    turns keeping theirs; the first step still succeeds, the turn is
    still part of the chat history, and the rewriter still calls the
    model. *)
Theorem other_role_dropped_yet_rewrites
    (before : list ChatTurn) (t : ChatTurn) (after : list ChatTurn)
    (last_turn : ChatTurn) (w : world) :
  role t <> "user" -> role t <> "assistant" ->
  exists x : Parsed.t,
    parse_step (before ++ t :: after ++ [last_turn])%list w = (Ok x, w)
    /\ Parsed.chat_history x = (before ++ t :: after)%list
    /\ Parsed.formatted_chat_history x
       = format_chat_history_for_prompt (before ++ after ++ [last_turn])%list
    /\ rephrase' x w
       = (model (query_rewrite_prompt' x),
          {| trace := trace w ++ [ModelCall (query_rewrite_prompt' x)];
             parameters := parameters w |}).
Proof.
  intros Huser Hassistant.
  eexists. split.
  { replace (before ++ t :: after ++ [last_turn])%list
      with ((before ++ t :: after) ++ [last_turn])%list by by rewrite <- app_assoc.
    apply parse_step_snoc. }
  split; [reflexivity|]. split.
  - cbn [Parsed.formatted_chat_history].
    rewrite format_chat_history_omap, app_assoc, extract_chat_history_snoc.
    rewrite !omap_app.
    change (omap message_of_turn (t :: after))
      with (match message_of_turn t with
            | Some m => m :: omap message_of_turn after
            | None => omap message_of_turn after
            end).
    by rewrite omap_message_of_turn_other.
  - run_chain.
    replace (0 <? List.length (before ++ t :: after)%list)%nat with true.
    + by destruct (model _).
    + symmetry. apply Nat.ltb_lt. rewrite length_app. simpl. lia.
Qed.

(** *** Classification and retrieval *)

(** C1, as the code has it: whatever the classifier replies, a label or
    not, the reply stripped of surrounding whitespace is written as the
    [topic] filter into the parameters and the search is issued with it;
    the stage fails only if the search or the formatting of its chunks
    does. *)
Theorem context_of_filters_on_any_reply
    (y : Rephrased.t) (reply : string) (w : world) :
  model (get_topic_prompt (Rephrased.rephrased_question y)) = Ok reply ->
  let query := Rephrased.rephrased_question y in
  let kwargs :=
    <["filter" := Mapping {["topic" := PyStr.strip reply]}]> (parameters w) in
  context_of' y w
  = (match vs_index FilteredRetriever kwargs query with
     | Ok docs => format_context' docs
     | Err e => Err e
     end,
     {| trace := trace w ++ [ ModelCall (get_topic_prompt query);
                              Printed ("filter_value: " +:+ reply +:+ "
");
                              IndexSearch FilteredRetriever kwargs query ];
        parameters := kwargs |}).
Proof.
  destruct y as [query docs0 question history].
  cbn [Rephrased.rephrased_question].
  intros Hreply. run_chain. rewrite Hreply. simpl_chain.
  rewrite <- !app_assoc. cbn [app].
  by destruct (vs_index _ _ _).
Qed.

Lemma chain_snoc (history : list ChatTurn) (last_turn : ChatTurn) (w : world) :
  chain' (history ++ [last_turn]) w
  = (y <- rephrase_step model vs_index str_of_messages
            {| Parsed.question := content last_turn;
               Parsed.chat_history := history;
               Parsed.formatted_chat_history := omap message_of_turn history |} ;;
     z <- context_step model vs_index chunk_template title_column y ;;
     generate model llm_system_prompt_template z) w.
Proof.
  unfold chain at 1. unfold bind at 1.
  by rewrite parse_step_snoc.
Qed.

(** *** Answer generation *)

(** C4: whenever the chain returns an answer, with or without a
    rewriting round, the last call recorded is the model call on the chat
    prompt made of a system message, the formatted history and, last, a
    user message holding the content of the conversation's last turn; the
    answer is the model's reply to it. *)
Theorem answer_prompt_ends_with_original_question
    (history : list ChatTurn) (last_turn : ChatTurn) (w w' : world)
    (answer : string) :
  chain' (history ++ [last_turn]) w = (Ok answer, w') ->
  exists system : string,
    let p := ChatPromptValue
               (SystemMessage system
                :: format_chat_history_for_prompt (history ++ [last_turn])
                ++ [HumanMessage (content last_turn)]) in
    last (trace w') = Some (ModelCall p) /\ model p = Ok answer.
Proof.
  rewrite chain_snoc, format_chat_history_omap, extract_chat_history_snoc.
  run_chain. unfold prompt.
  destruct history as [|first rest]; cbn [List.length Nat.ltb Nat.leb];
    simpl_chain;
    repeat destruct_reply;
    intros H; try discriminate H;
    injection H as <- <-; simpl_chain;
    eexists; (split; [apply last_snoc|assumption]).
Qed.

(** *** The chain answers when its collaborators do *)

Lemma chunk_contents_total (docs : list Document) :
  (forall text title, exists chunk, chunk_template text title = Ok chunk) ->
  Forall (fun d => is_Some (metadata d !! title_column)) docs ->
  exists chunks, chunk_contents chunk_template title_column docs = Ok chunks.
Proof.
  intros Htemplate. induction 1 as [|d docs [title Ht] _ [chunks IH]].
  - by exists [].
  - destruct (Htemplate (page_content d) title) as [chunk Hc].
    exists (chunk :: chunks). simpl. by rewrite Ht, Hc, IH.
Qed.

(** X18: on a conversation with a last turn the chain returns an answer as
    soon as the model answers every prompt, the index answers every
    search with chunks that carry the title column, and both templates
    format: its own code adds no other failure. *)
Lemma chain_answers (history : list ChatTurn) (last_turn : ChatTurn) (w : world) :
  (forall p, exists text, model p = Ok text) ->
  (forall r kwargs query, exists docs,
      vs_index r kwargs query = Ok docs
      /\ Forall (fun d => is_Some (metadata d !! title_column)) docs) ->
  (forall text title, exists chunk, chunk_template text title = Ok chunk) ->
  (forall x, exists system, llm_system_prompt_template x = Ok system) ->
  exists (answer : string) (w' : world),
    chain' (history ++ [last_turn]) w = (Ok answer, w').
Proof.
  intros Hmodel Hindex Htemplate Hsystem.
  rewrite chain_snoc. run_chain. unfold prompt, format_context.
  destruct history as [|first rest]; cbn [List.length Nat.ltb Nat.leb];
    simpl_chain;
    repeat match goal with
      | |- context [model ?p] =>
          let H := fresh in destruct (Hmodel p) as [? H]; rewrite H; simpl_chain
      | |- context [vs_index ?r ?k ?q] =>
          let H := fresh in
          let F := fresh in
          let C := fresh in
          destruct (Hindex r k q) as (? & H & F); rewrite H; simpl_chain;
          destruct (chunk_contents_total _ Htemplate F) as [? C];
          rewrite ?C; simpl_chain
      | |- context [llm_system_prompt_template ?x] =>
          let H := fresh in destruct (Hsystem x) as [? H]; rewrite H; simpl_chain
      end.
  - by eexists _, _.
  - by eexists _, _.
Qed.

End Pipeline.

Lemma other_role_dropped_yet_rewrites_sample :
  let t := {| role := "system"; content := "Answer briefly." |} in
  let last_turn := {| role := "user"; content := "How does it scale?" |} in
  let model := Sample.model "cancer vaccines" in
  exists x : Parsed.t,
    parse_step [t; last_turn] Sample.loaded = (Ok x, Sample.loaded)
    /\ Parsed.chat_history x = [t]
    /\ Parsed.formatted_chat_history x
       = format_chat_history_for_prompt [last_turn]
    /\ rephrase model Sample.str_of_messages x Sample.loaded
       = (model (query_rewrite_prompt Sample.str_of_messages x),
          {| trace := trace Sample.loaded
                      ++ [ModelCall (query_rewrite_prompt Sample.str_of_messages x)];
             parameters := parameters Sample.loaded |}).
Proof.
  intros t last_turn model.
  apply (other_role_dropped_yet_rewrites model Sample.str_of_messages
           [] t [] last_turn Sample.loaded); discriminate.
Defined.

(** C5 fails on the code: the reply to the rewriting prompt comes back
    with its surrounding spaces, not trimmed. *)
Lemma rephrase_reply_not_trimmed :
  let x := {| Parsed.question := "How does it scale?";
              Parsed.chat_history := extract_chat_history Sample.multi_turn;
              Parsed.formatted_chat_history :=
                format_chat_history_for_prompt Sample.multi_turn |} in
  parse_step Sample.multi_turn Sample.loaded = (Ok x, Sample.loaded)
  /\ (rephrase (Sample.model "cancer vaccines") Sample.str_of_messages x
               Sample.loaded).1
     = Ok " How does Spark scale out? "
  /\ PyStr.strip " How does Spark scale out? " = "How does Spark scale out?"
  /\ (rephrase (Sample.model "cancer vaccines") Sample.str_of_messages x
               Sample.loaded).1
     <> Ok (PyStr.strip " How does Spark scale out? ").
Proof. vm_compute. repeat split; discriminate. Qed.

Lemma context_of_filters_on_any_reply_sample :
  let y := {| Rephrased.rephrased_question := "What is spark?";
              Rephrased.retriever := [];
              Rephrased.question := "What is spark?";
              Rephrased.formatted_chat_history := [] |} in
  let kwargs :=
    <["filter" := Mapping {["topic" := PyStr.strip " I'm not sure "]}]>
      (parameters Sample.loaded) in
  context_of (Sample.model " I'm not sure ") (Sample.vs_index [])
             Sample.chunk_template "title" y Sample.loaded
  = (match Sample.vs_index [] FilteredRetriever kwargs "What is spark?" with
     | Ok docs => format_context Sample.chunk_template "title" docs
     | Err e => Err e
     end,
     {| trace := trace Sample.loaded
                 ++ [ ModelCall (get_topic_prompt "What is spark?");
                      Printed ("filter_value: " +:+ " I'm not sure " +:+ "
");
                      IndexSearch FilteredRetriever kwargs "What is spark?" ];
        parameters := kwargs |}).
Proof.
  intros y kwargs.
  apply (context_of_filters_on_any_reply
           (Sample.model " I'm not sure ") (Sample.vs_index [])
           Sample.chunk_template "title" y " I'm not sure " Sample.loaded).
  reflexivity.
Defined.

(** C1 fails on the code: a reply that is no label is not refused.  The
    chain answers, and the filtered search was made with the reply as the
    value of [topic]. *)
Lemma unmatched_reply_becomes_filter :
  let run := Sample.chain "I'm not sure" [] Sample.single_turn Sample.loaded in
  matches_topic_label "I'm not sure" = false
  /\ run.1 = Ok Sample.answer
  /\ trace run.2 !! 3
     = Some (IndexSearch FilteredRetriever
               (<["filter" := Mapping {["topic" := "I'm not sure"]}]>
                  (parameters Sample.loaded))
               "What is spark?").
Proof. vm_compute. done. Qed.

Lemma answer_prompt_ends_with_original_question_sample :
  exists system : string,
    let p := ChatPromptValue
               (SystemMessage system
                :: format_chat_history_for_prompt Sample.multi_turn
                ++ [HumanMessage "How does it scale?"]) in
    last (trace (Sample.chain "cancer vaccines" [] Sample.multi_turn
                              Sample.loaded).2)
    = Some (ModelCall p)
    /\ Sample.model "cancer vaccines" p = Ok Sample.answer.
Proof.
  apply (answer_prompt_ends_with_original_question
           (Sample.model "cancer vaccines") (Sample.vs_index [])
           Sample.chunk_template Sample.llm_system_prompt_template "title"
           Sample.str_of_messages
           (extract_chat_history Sample.multi_turn)
           {| role := "user"; content := "How does it scale?" |}
           Sample.loaded).
  vm_compute. reflexivity.
Defined.

(** ** Membership in a trace *)

Lemma elem_of_snoc_here {A} (x : A) (l : list A) : x ∈ (l ++ [x])%list.
Proof. apply elem_of_app. right. apply list_elem_of_singleton. reflexivity. Qed.

Lemma elem_of_snoc_earlier {A} (x y : A) (l : list A) :
  x ∈ l -> x ∈ (l ++ [y])%list.
Proof. intros H. apply elem_of_app. by left. Qed.

(** * Further properties of the chain's code *)

(** ** Splitting the conversation *)

(** X1: the history and the question put a non-empty conversation back
    together: the history followed by one last turn, whose content is the
    question. *)
Theorem history_and_question_rebuild_conversation (messages : list ChatTurn) :
  messages <> [] ->
  exists last_turn : ChatTurn,
    messages = (extract_chat_history messages ++ [last_turn])%list
    /\ extract_user_query_string messages = Ok (content last_turn)
    /\ S (List.length (extract_chat_history messages)) = List.length messages.
Proof.
  intros Hnonempty.
  destruct messages as [|t messages _] using rev_ind; [done|].
  exists t.
  rewrite extract_chat_history_snoc, extract_user_query_string_snoc, length_app.
  repeat split. simpl. lia.
Qed.

Lemma history_and_question_rebuild_conversation_sample :
  exists last_turn : ChatTurn,
    Sample.multi_turn
    = (extract_chat_history Sample.multi_turn ++ [last_turn])%list
    /\ extract_user_query_string Sample.multi_turn = Ok (content last_turn)
    /\ S (List.length (extract_chat_history Sample.multi_turn))
       = List.length Sample.multi_turn.
Proof.
  apply (history_and_question_rebuild_conversation Sample.multi_turn).
  discriminate.
Defined.

(** ** The formatted history *)

(** X2: the formatted history is built turn by turn: formatting a history
    made of two parts gives the messages of the first part followed by
    those of the second. *)
Theorem formatted_history_of_two_parts
    (earlier later : list ChatTurn) (last_turn : ChatTurn) :
  format_chat_history_for_prompt (earlier ++ later ++ [last_turn])%list
  = (format_chat_history_for_prompt (earlier ++ [last_turn])
     ++ format_chat_history_for_prompt (later ++ [last_turn]))%list.
Proof.
  rewrite !format_chat_history_omap, app_assoc, !extract_chat_history_snoc.
  apply omap_app.
Qed.

(** X3: the formatted history never holds more messages than there are turns
    before the last, never holds a system message, and does not depend
    on the last turn. *)
Theorem formatted_history_bounded
    (history : list ChatTurn) (last_turn other_turn : ChatTurn) :
  List.length (format_chat_history_for_prompt (history ++ [last_turn]))
    <= List.length history
  /\ (forall c, SystemMessage c ∉ format_chat_history_for_prompt (history ++ [last_turn]))
  /\ format_chat_history_for_prompt (history ++ [last_turn])
     = format_chat_history_for_prompt (history ++ [other_turn]).
Proof.
  rewrite !format_chat_history_omap, !extract_chat_history_snoc.
  split; [|split; [|reflexivity]].
  - induction history as [|t history IH]; [done|].
    change (omap message_of_turn (t :: history))
      with (match message_of_turn t with
            | Some m => m :: omap message_of_turn history
            | None => omap message_of_turn history
            end).
    destruct (message_of_turn t); simpl; lia.
  - intros c Hin. apply list_elem_of_omap in Hin as (t & _ & Ht).
    unfold message_of_turn in Ht.
    destruct (role t =? "user")%string; [discriminate|].
    destruct (role t =? "assistant")%string; discriminate.
Qed.

(** ** The context block *)

Lemma string_app_assoc (a b c : string) :
  ((a +:+ b) +:+ c) = (a +:+ (b +:+ c)).
Proof.
  induction a as [|x a IH]; [reflexivity|].
  change (String x ((a +:+ b) +:+ c) = String x (a +:+ (b +:+ c))).
  by rewrite IH.
Qed.

Lemma concat_chunks_app (chunks1 chunks2 : list string) :
  String.concat EmptyString (chunks1 ++ chunks2)%list
  = (String.concat EmptyString chunks1 +:+ String.concat EmptyString chunks2).
Proof.
  rewrite !concat_empty_sep.
  induction chunks1 as [|c chunks1 IH]; [reflexivity|].
  simpl. by rewrite IH, string_app_assoc.
Qed.

Section ContextBlock.

Variable chunk_template : string -> string -> result string.
Variable title_column : string.

Local Abbreviation chunk_contents' := (chunk_contents chunk_template title_column).
Local Abbreviation format_context' := (format_context chunk_template title_column).

Lemma chunk_contents_app (docs1 docs2 : list Document) (chunks1 : list string) :
  chunk_contents' docs1 = Ok chunks1 ->
  chunk_contents' (docs1 ++ docs2)%list
  = match chunk_contents' docs2 with
    | Ok chunks2 => Ok (chunks1 ++ chunks2)%list
    | Err e => Err e
    end.
Proof.
  revert chunks1.
  induction docs1 as [|d docs1 IH]; intros chunks1; simpl.
  - intros [= <-]. by destruct (chunk_contents' docs2).
  - destruct (metadata d !! title_column) as [title|]; [|discriminate].
    destruct (chunk_template (page_content d) title) as [chunk|e]; [|discriminate].
    destruct (chunk_contents' docs1) as [chunks|e] eqn:E; [|discriminate].
    intros [= <-]. rewrite (IH chunks eq_refl).
    by destruct (chunk_contents' docs2).
Qed.

(** X4: the context of two batches of chunks is the context of the first
    followed by the context of the second. *)
Theorem format_context_of_two_batches
    (docs1 docs2 : list Document) (context1 context2 : string) :
  format_context' docs1 = Ok context1 ->
  format_context' docs2 = Ok context2 ->
  format_context' (docs1 ++ docs2)%list = Ok (context1 +:+ context2).
Proof.
  unfold format_context.
  destruct (chunk_contents' docs1) as [chunks1|e] eqn:E1; [|discriminate].
  destruct (chunk_contents' docs2) as [chunks2|e] eqn:E2; [|discriminate].
  intros [= <-] [= <-].
  rewrite (chunk_contents_app docs1 docs2 chunks1 E1), E2.
  by rewrite concat_chunks_app.
Qed.

(** X5: a chunk without the title column makes the formatting fail with
    [KeyError] on that column, whatever comes after it, once the chunks
    before it have been rendered. *)
Theorem format_context_missing_title
    (rendered : list Document) (context : string)
    (d : Document) (rest : list Document) :
  format_context' rendered = Ok context ->
  metadata d !! title_column = None ->
  format_context' (rendered ++ d :: rest)%list = Err (KeyError title_column).
Proof.
  unfold format_context.
  destruct (chunk_contents' rendered) as [chunks|e] eqn:E; [|discriminate].
  intros _ Hmissing.
  rewrite (chunk_contents_app rendered (d :: rest) chunks E).
  simpl. by rewrite Hmissing.
Qed.

(** X6: the first chunk the template refuses decides the error: the chunks
    after it are not looked at. *)
Theorem format_context_template_error
    (rendered : list Document) (context : string)
    (d : Document) (rest : list Document) (title : string) (e : exn) :
  format_context' rendered = Ok context ->
  metadata d !! title_column = Some title ->
  chunk_template (page_content d) title = Err e ->
  format_context' (rendered ++ d :: rest)%list = Err e.
Proof.
  unfold format_context.
  destruct (chunk_contents' rendered) as [chunks|e0] eqn:E; [|discriminate].
  intros _ Htitle Htemplate.
  rewrite (chunk_contents_app rendered (d :: rest) chunks E).
  simpl. by rewrite Htitle, Htemplate.
Qed.

End ContextBlock.

Lemma format_context_of_two_batches_sample :
  format_context Sample.chunk_template "title"
                 ([Sample.chunk] ++ [Sample.other_chunk])%list
  = Ok ("Passage: Executors run tasks.
Document URI: Spark internals
" +:+ "Passage: A driver schedules stages.
Document URI: Spark overview
").
Proof.
  apply (format_context_of_two_batches Sample.chunk_template "title"
           [Sample.chunk] [Sample.other_chunk]); reflexivity.
Defined.

Lemma format_context_missing_title_sample :
  format_context Sample.chunk_template "title"
                 ([Sample.chunk] ++ Outage.untitled_chunk :: [Sample.other_chunk])%list
  = Err (KeyError "title").
Proof.
  apply (format_context_missing_title Sample.chunk_template "title"
           [Sample.chunk]
           "Passage: Executors run tasks.
Document URI: Spark internals
"
           Outage.untitled_chunk [Sample.other_chunk]); reflexivity.
Defined.

Lemma format_context_template_error_sample :
  format_context (fun text title => if (title =? "Spark overview")%string
                                    then Err (KeyError "source")
                                    else Sample.chunk_template text title)
                 "title" ([Sample.chunk] ++ Sample.other_chunk :: [Sample.chunk])%list
  = Err (KeyError "source").
Proof.
  apply (format_context_template_error
           (fun text title => if (title =? "Spark overview")%string
                              then Err (KeyError "source")
                              else Sample.chunk_template text title)
           "title" [Sample.chunk]
           "Passage: Executors run tasks.
Document URI: Spark internals
"
           Sample.other_chunk [Sample.chunk] "Spark overview");
    reflexivity.
Defined.

(** ** Stripping the classifier's reply *)

Lemma lstrip_split (s : string) :
  exists pre, s = (pre +:+ PyStr.lstrip s) /\ all_space pre = true.
Proof.
  induction s as [|c s (pre & Hs & Hpre)].
  - by exists EmptyString.
  - simpl. destruct (PyStr.isspace c) eqn:Hc.
    + exists (String c pre). split.
      * change (String c s = String c (pre +:+ PyStr.lstrip s)). by rewrite <- Hs.
      * simpl. by rewrite Hc, Hpre.
    + by exists EmptyString.
Qed.

Lemma rstrip_split (s : string) :
  exists post, s = (PyStr.rstrip s +:+ post) /\ all_space post = true.
Proof.
  induction s as [|c s (post & Hs & Hpost)].
  - by exists EmptyString.
  - simpl. destruct (PyStr.rstrip s) as [|k kept] eqn:E.
    + destruct (PyStr.isspace c) eqn:Hc.
      * exists (String c s). split; [reflexivity|].
        simpl. rewrite Hc. simpl. by rewrite Hs.
      * exists s. split; [reflexivity|]. by rewrite Hs.
    + exists post. split; [|done].
      change (String c s = String c (String k kept +:+ post)). by rewrite <- Hs.
Qed.

Lemma lstrip_first (s : string) (c : ascii) :
  first_char (PyStr.lstrip s) = Some c -> PyStr.isspace c = false.
Proof.
  induction s as [|a s IH]; [discriminate|].
  simpl. destruct (PyStr.isspace a) eqn:Ha; [exact IH|].
  by intros [= <-].
Qed.

Lemma rstrip_first (s : string) (c : ascii) :
  first_char s = Some c -> PyStr.isspace c = false ->
  first_char (PyStr.rstrip s) = Some c.
Proof.
  destruct s as [|a s]; [discriminate|].
  intros [= <-] Ha. simpl.
  destruct (PyStr.rstrip s); [by rewrite Ha|done].
Qed.

Lemma rstrip_last (s : string) (c : ascii) :
  last_char (PyStr.rstrip s) = Some c -> PyStr.isspace c = false.
Proof.
  induction s as [|a s IH]; [discriminate|].
  simpl. destruct (PyStr.rstrip s) as [|k kept] eqn:E.
  - destruct (PyStr.isspace a) eqn:Ha; [discriminate|].
    by intros [= <-].
  - exact IH.
Qed.

Lemma rstrip_rstrip (s : string) :
  PyStr.rstrip (PyStr.rstrip s) = PyStr.rstrip s.
Proof.
  induction s as [|a s IH]; [reflexivity|].
  simpl. destruct (PyStr.rstrip s) as [|k kept] eqn:E.
  - destruct (PyStr.isspace a) eqn:Ha; [reflexivity|].
    simpl. by rewrite Ha.
  - change (PyStr.rstrip (String a (String k kept)))
      with (match PyStr.rstrip (String k kept) with
            | EmptyString =>
                if PyStr.isspace a then EmptyString else String a EmptyString
            | rest => String a rest
            end).
    by rewrite IH.
Qed.

Lemma strip_first (s : string) (c : ascii) :
  first_char (PyStr.strip s) = Some c -> PyStr.isspace c = false.
Proof.
  unfold PyStr.strip.
  destruct (PyStr.lstrip s) as [|a rest] eqn:E; [discriminate|].
  assert (Ha : PyStr.isspace a = false) by (apply (lstrip_first s); by rewrite E).
  rewrite (rstrip_first (String a rest) a eq_refl Ha).
  by intros [= <-].
Qed.

Lemma lstrip_strip (s : string) :
  PyStr.lstrip (PyStr.strip s) = PyStr.strip s.
Proof.
  pose proof (strip_first s) as Hfirst.
  destruct (PyStr.strip s) as [|a rest]; [reflexivity|].
  simpl. by rewrite (Hfirst a eq_refl).
Qed.

(** X7: what [get_retriever] writes as the topic is the reply without its
    outer whitespace and nothing else: the reply is the written value
    between two runs of whitespace, and the written value neither starts
    nor ends with whitespace. *)
Theorem strip_removes_outer_whitespace_only (reply : string) :
  outer_space (PyStr.strip reply) = false
  /\ exists before after : string,
       reply = (before +:+ PyStr.strip reply +:+ after)
       /\ all_space before = true /\ all_space after = true.
Proof.
  split.
  - unfold outer_space.
    pose proof (strip_first reply) as Hfirst.
    pose proof (rstrip_last (PyStr.lstrip reply)) as Hlast.
    fold (PyStr.strip reply) in Hlast.
    destruct (first_char (PyStr.strip reply)) as [c|]; simpl;
      [rewrite (Hfirst c eq_refl)|];
      (destruct (last_char (PyStr.strip reply)) as [c'|]; simpl;
       [by rewrite (Hlast c' eq_refl)|done]).
  - destruct (lstrip_split reply) as (before & Hbefore & Hb).
    destruct (rstrip_split (PyStr.lstrip reply)) as (after & Hafter & Ha).
    exists before, after. repeat split; [|done|done].
    unfold PyStr.strip. by rewrite <- Hafter.
Qed.

(** X8: stripping a stripped reply changes nothing. *)
Theorem strip_idempotent (reply : string) :
  PyStr.strip (PyStr.strip reply) = PyStr.strip reply.
Proof.
  unfold PyStr.strip at 1. rewrite lstrip_strip.
  unfold PyStr.strip. apply rstrip_rstrip.
Qed.

(** ** Whole requests *)

Section Requests.

Variable model : prompt_value -> result string.
Variable vs_index :
  retriever_id -> gmap string kwval -> string -> result (list Document).
Variable chunk_template : string -> string -> result string.
Variable llm_system_prompt_template : PromptInput.t -> result string.
Variable title_column : string.
Variable str_of_messages : list ChatTurn -> string.

Local Abbreviation run_chain_on :=
  (chain model vs_index chunk_template llm_system_prompt_template
         title_column str_of_messages).


(** X10: the chain never reads the role of the last turn: two conversations
    that differ in it alone run alike. *)
Theorem chain_ignores_last_role
    (history : list ChatTurn) (role1 role2 question : string) (w : world) :
  run_chain_on (history ++ [ {| role := role1; content := question |} ]) w
  = run_chain_on (history ++ [ {| role := role2; content := question |} ]) w.
Proof. by rewrite !chain_snoc. Qed.

(** X11: [get_retriever] leaves every search parameter but [filter] as it
    found it and replaces [filter], whatever it held, by the one-entry
    mapping on [topic]; the search is made with the parameters so
    written, and they stay written whether the search succeeds or not. *)
Theorem get_retriever_writes_filter (info : Info.t) (w : world) :
  let run := get_retriever vs_index info w in
  parameters run.2 !! "filter"
  = Some (Mapping {["topic" := PyStr.strip (Info.filter_value info)]})
  /\ (forall key, key <> "filter" ->
        parameters run.2 !! key = parameters w !! key)
  /\ run.1 = vs_index FilteredRetriever (parameters run.2)
                      (Info.rephrased_question info)
  /\ last (trace run.2)
     = Some (IndexSearch FilteredRetriever (parameters run.2)
                         (Info.rephrased_question info)).
Proof.
  destruct info as [query reply]. run_chain.
  destruct (vs_index FilteredRetriever _ query) eqn:E; simpl_chain;
    (split; [apply lookup_insert_eq|]);
    (split; [intros key Hkey; by apply lookup_insert_ne|]);
    (split; [reflexivity|apply last_snoc]).
Qed.

(** X12: a request changes no search parameter other than [filter], however
    it ends. *)
Theorem chain_changes_only_filter
    (messages : list ChatTurn) (w : world) (key : string) :
  key <> "filter" ->
  parameters (run_chain_on messages w).2 !! key = parameters w !! key.
Proof.
  intros Hkey.
  destruct messages as [|last_turn history _] using rev_ind; [reflexivity|].
  rewrite chain_snoc. run_chain.
  destruct history as [|first rest]; cbn [List.length Nat.ltb Nat.leb];
    simpl_chain; repeat destruct_reply;
    first [reflexivity | by apply lookup_insert_ne].
Qed.


(** X17: when the classification call fails nothing is printed, no filter is
    written and no search is made. *)
Theorem classification_failure_skips_search
    (y : Rephrased.t) (w : world) (e : exn) :
  model (get_topic_prompt (Rephrased.rephrased_question y)) = Err e ->
  context_of model vs_index chunk_template title_column y w
  = (Err e,
     {| trace := trace w
                 ++ [ModelCall (get_topic_prompt (Rephrased.rephrased_question y))];
        parameters := parameters w |}).
Proof.
  destruct y as [query docs0 question history].
  cbn [Rephrased.rephrased_question].
  intros Hreply. run_chain. by rewrite Hreply.
Qed.

End Requests.

Lemma chain_changes_only_filter_sample :
  parameters (Sample.chain "cancer vaccines" [] Sample.multi_turn Sample.loaded).2
    !! "k"
  = parameters Sample.loaded !! "k".
Proof.
  apply (chain_changes_only_filter
           (Sample.model "cancer vaccines") (Sample.vs_index [])
           Sample.chunk_template Sample.llm_system_prompt_template "title"
           Sample.str_of_messages Sample.multi_turn Sample.loaded "k").
  discriminate.
Defined.


Lemma classification_failure_skips_search_sample :
  let y := {| Rephrased.rephrased_question := "What is spark?";
              Rephrased.retriever := [];
              Rephrased.question := "What is spark?";
              Rephrased.formatted_chat_history := [] |} in
  context_of Outage.model (Sample.vs_index []) Sample.chunk_template "title"
             y Sample.loaded
  = (Err Outage.timeout,
     {| trace := trace Sample.loaded
                 ++ [ModelCall (get_topic_prompt "What is spark?")];
        parameters := parameters Sample.loaded |}).
Proof.
  intros y.
  apply (classification_failure_skips_search
           Outage.model (Sample.vs_index []) Sample.chunk_template "title"
           y Sample.loaded Outage.timeout).
  reflexivity.
Defined.

Lemma chain_answers_sample :
  exists (answer : string) (w' : world),
    Sample.chain "cancer vaccines" [Sample.chunk] Sample.multi_turn Sample.loaded
    = (Ok answer, w').
Proof.
  apply (chain_answers
           (Sample.model "cancer vaccines") (Sample.vs_index [Sample.chunk])
           Sample.chunk_template Sample.llm_system_prompt_template "title"
           Sample.str_of_messages
           (extract_chat_history Sample.multi_turn)
           {| role := "user"; content := "How does it scale?" |}
           Sample.loaded).
  - intros [text|msgs]; simpl; [|by eexists].
    destruct (String.prefix _ text); by eexists.
  - intros [|] kwargs query; eexists; (split; [reflexivity|]);
      repeat (constructor; [by eexists|]); constructor.
  - intros text title. by eexists.
  - intros x. by eexists.
Defined.

(** ** The shared search parameters across calls *)

Section SharedParameters.

Variable vs_index :
  retriever_id -> gmap string kwval -> string -> result (list Document).

(** X19: filters do not pile up: after two calls of [get_retriever] the
    parameters are what the second call alone would have left. *)
Theorem get_retriever_keeps_last_filter (info1 info2 : Info.t) (w : world) :
  parameters (get_retriever vs_index info2 (get_retriever vs_index info1 w).2).2
  = parameters (get_retriever vs_index info2 w).2.
Proof.
  destruct info1 as [query1 reply1], info2 as [query2 reply2]. run_chain.
  apply insert_insert_eq.
Qed.

End SharedParameters.

(** * The chain whatever the schedule and the library's keeping of the
      parameters *)

Ltac run_general :=
  cbv beta iota zeta delta
    [chain_general rephrase_step_general retriever_holding par_scheduled
     chain parse_step rephrase_step context_step context_of generate classify
     get_retriever retriever invoke_retriever invoke_model set_filter rephrase
     bind par lift ret emit StrOutputParser];
  simpl_chain.

Section EitherOrder.

Variable model : prompt_value -> result string.
Variable vs_index :
  retriever_id -> gmap string kwval -> string -> result (list Document).
Variable chunk_template : string -> string -> result string.
Variable llm_system_prompt_template : PromptInput.t -> result string.
Variable title_column : string.
Variable str_of_messages : list ChatTurn -> string.
Variable held : gmap string kwval -> gmap string kwval.
Variable search_first : bool.

Local Abbreviation general_chain :=
  (chain_general model vs_index chunk_template llm_system_prompt_template
                 title_column str_of_messages held search_first).

(** The chain of the earlier sections is the general one with the
    parameters kept by reference and the calls in key order. *)
Lemma chain_is_chain_general (messages : list ChatTurn) (w : world) :
  chain model vs_index chunk_template llm_system_prompt_template
        title_column str_of_messages messages w
  = chain_general model vs_index chunk_template llm_system_prompt_template
                  title_column str_of_messages (fun kwargs => kwargs) false
                  messages w.
Proof. reflexivity. Qed.

Lemma chain_general_snoc
    (history : list ChatTurn) (last_turn : ChatTurn) (w : world) :
  general_chain (history ++ [last_turn]) w
  = (y <- rephrase_step_general model vs_index str_of_messages held search_first
            {| Parsed.question := content last_turn;
               Parsed.chat_history := history;
               Parsed.formatted_chat_history := omap message_of_turn history |} ;;
     z <- context_step model vs_index chunk_template title_column y ;;
     generate model llm_system_prompt_template z) w.
Proof.
  unfold chain_general at 1. unfold bind at 1.
  by rewrite parse_step_snoc.
Qed.

(** C6: in a conversation with history, once the rewriter's call and the
    module-level search have returned, in whichever order the two were
    made, the string the classifier is asked about and the query of the
    filtered search are both the rewriter's output, not the last turn's
    content, and the filtered search carries the filter [topic] = the
    classifier's reply, stripped. *)
Theorem rewritten_query_feeds_classifier_and_search
    (first : ChatTurn) (rest : list ChatTurn) (last_turn : ChatTurn) (w : world)
    (rewritten reply : string) (extra : list Document) :
  let x := {| Parsed.question := content last_turn;
              Parsed.chat_history := first :: rest;
              Parsed.formatted_chat_history :=
                omap message_of_turn (first :: rest) |} in
  let rewriting := ModelCall (query_rewrite_prompt str_of_messages x) in
  let searching :=
    IndexSearch ModuleRetriever (held (parameters w)) (content last_turn) in
  model (query_rewrite_prompt str_of_messages x) = Ok rewritten ->
  vs_index ModuleRetriever (held (parameters w)) (content last_turn) = Ok extra ->
  model (get_topic_prompt rewritten) = Ok reply ->
  exists later : list event,
    trace (general_chain (first :: rest ++ [last_turn])%list w).2
    = (trace w
       ++ (if search_first then [searching; rewriting]
           else [rewriting; searching])
       ++ [ ModelCall (get_topic_prompt rewritten);
            Printed ("filter_value: " +:+ reply +:+ "
");
            IndexSearch FilteredRetriever
              (<["filter" := Mapping {["topic" := PyStr.strip reply]}]> (parameters w))
              rewritten ]
       ++ later)%list.
Proof.
  intros x rewriting searching Hrewritten Hextra Hreply.
  subst x rewriting searching.
  change (first :: rest ++ [last_turn])%list
    with ((first :: rest) ++ [last_turn])%list.
  rewrite chain_general_snoc.
  destruct search_first; run_general; cbn [List.length Nat.ltb Nat.leb];
    repeat (first [rewrite Hrewritten | rewrite Hextra | rewrite Hreply];
            simpl_chain);
    unfold prompt; repeat destruct_reply;
    rewrite <- !app_assoc; cbn [app];
    eexists; reflexivity.
Qed.

(** X14: a request with history that is answered has made exactly these
    calls: the rewriting call and the module-level search on the question
    as it was asked, in either order, then the classification and the
    filtered search on the rewritten question, and the answering call. *)
Theorem multi_turn_request_calls
    (first : ChatTurn) (rest : list ChatTurn) (last_turn : ChatTurn)
    (w w' : world) (answer : string) :
  let x := {| Parsed.question := content last_turn;
              Parsed.chat_history := first :: rest;
              Parsed.formatted_chat_history :=
                omap message_of_turn (first :: rest) |} in
  let rewriting := ModelCall (query_rewrite_prompt str_of_messages x) in
  let searching :=
    IndexSearch ModuleRetriever (held (parameters w)) (content last_turn) in
  general_chain (first :: rest ++ [last_turn])%list w = (Ok answer, w') ->
  exists (rewritten reply system : string),
    let kwargs :=
      <["filter" := Mapping {["topic" := PyStr.strip reply]}]> (parameters w) in
    let final :=
      ChatPromptValue
        (SystemMessage system
         :: omap message_of_turn (first :: rest)
         ++ [HumanMessage (content last_turn)]) in
    model (query_rewrite_prompt str_of_messages x) = Ok rewritten
    /\ model (get_topic_prompt rewritten) = Ok reply
    /\ model final = Ok answer
    /\ w' = {| trace := trace w
                 ++ (if search_first then [searching; rewriting]
                     else [rewriting; searching])
                 ++ [ ModelCall (get_topic_prompt rewritten);
                      Printed ("filter_value: " +:+ reply +:+ "
");
                      IndexSearch FilteredRetriever kwargs rewritten;
                      ModelCall final ];
               parameters := kwargs |}.
Proof.
  intros x rewriting searching. subst x rewriting searching.
  change (first :: rest ++ [last_turn])%list
    with ((first :: rest) ++ [last_turn])%list.
  rewrite chain_general_snoc.
  destruct search_first; run_general; unfold prompt, format_context;
    cbn [List.length Nat.ltb Nat.leb]; simpl_chain;
    repeat destruct_reply; intros H; try discriminate H;
    injection H as <- <-;
    eexists _, _, _; repeat (split; [first [reflexivity | eassumption]|]);
    rewrite <- !app_assoc; reflexivity.
Qed.

(** X15: when the module-level search fails the request fails, although
    nothing of that search would have been used: no classification is
    asked for, no filter is written.  The error is the search's, unless
    the rewriting call failed too; the two calls come in either order. *)
Theorem module_search_failure_fails_request
    (history : list ChatTurn) (last_turn : ChatTurn) (w : world) (e : exn) :
  let x := {| Parsed.question := content last_turn;
              Parsed.chat_history := history;
              Parsed.formatted_chat_history := omap message_of_turn history |} in
  let rewriting := ModelCall (query_rewrite_prompt str_of_messages x) in
  let searching :=
    IndexSearch ModuleRetriever (held (parameters w)) (content last_turn) in
  vs_index ModuleRetriever (held (parameters w)) (content last_turn) = Err e ->
  general_chain (history ++ [last_turn]) w
  = (Err (match history, model (query_rewrite_prompt str_of_messages x) with
          | _ :: _, Err e0 => e0
          | _, _ => e
          end),
     {| trace := trace w
                 ++ match history with
                    | [] => [searching]
                    | _ :: _ => if search_first then [searching; rewriting]
                                else [rewriting; searching]
                    end;
        parameters := parameters w |}).
Proof.
  intros x rewriting searching Hsearch. subst x rewriting searching.
  rewrite chain_general_snoc.
  destruct search_first, history as [|first rest]; run_general;
    cbn [List.length Nat.ltb Nat.leb]; simpl_chain;
    rewrite ?Hsearch; simpl_chain;
    try (destruct (model _) as [rewritten|e0]; simpl_chain);
    rewrite ?Hsearch; simpl_chain;
    rewrite <- ?app_assoc; reflexivity.
Qed.

(** X16: when the rewriting call fails the request fails with its error;
    the module-level search is made all the same, before or after it,
    and nothing else. *)
Theorem rewriting_failure_fails_request
    (first : ChatTurn) (rest : list ChatTurn) (last_turn : ChatTurn)
    (w : world) (e : exn) :
  let x := {| Parsed.question := content last_turn;
              Parsed.chat_history := first :: rest;
              Parsed.formatted_chat_history :=
                omap message_of_turn (first :: rest) |} in
  let rewriting := ModelCall (query_rewrite_prompt str_of_messages x) in
  let searching :=
    IndexSearch ModuleRetriever (held (parameters w)) (content last_turn) in
  model (query_rewrite_prompt str_of_messages x) = Err e ->
  general_chain (first :: rest ++ [last_turn])%list w
  = (Err e,
     {| trace := trace w
                 ++ (if search_first then [searching; rewriting]
                     else [rewriting; searching]);
        parameters := parameters w |}).
Proof.
  intros x rewriting searching Hrewrite. subst x rewriting searching.
  change (first :: rest ++ [last_turn])%list
    with ((first :: rest) ++ [last_turn])%list.
  rewrite chain_general_snoc.
  destruct search_first; run_general; cbn [List.length Nat.ltb Nat.leb];
    simpl_chain; rewrite Hrewrite; simpl_chain;
    try (destruct (vs_index ModuleRetriever _ _); simpl_chain);
    rewrite <- ?app_assoc; reflexivity.
Qed.

End EitherOrder.

(** ** The module-level retriever *)

Section ModuleRetriever.

Variable model : prompt_value -> result string.
Variable chunk_template : string -> string -> result string.
Variable llm_system_prompt_template : PromptInput.t -> result string.
Variable title_column : string.
Variable str_of_messages : list ChatTurn -> string.
Variable held : gmap string kwval -> gmap string kwval.
Variable search_first : bool.

Local Abbreviation chain_on vs_index :=
  (chain_general model vs_index chunk_template llm_system_prompt_template
                 title_column str_of_messages held search_first).

(** C9, as the code has it: on every conversation, taken as its history
    and its last turn, the module-level retriever is asked once more, with the content of the last turn as
    query and, as search arguments, the parameters that retriever holds:
    the request adds no filter to them.  And when that search returns,
    its chunks reach nothing: against two indexes that answer the
    filtered retriever alike, the run ends with the same result in the
    same state. *)
Theorem module_search_leaves_run_unchanged
    (vs1 vs2 : retriever_id -> gmap string kwval -> string -> result (list Document))
    (history : list ChatTurn) (last_turn : ChatTurn) (w : world)
    (extra1 extra2 : list Document) :
  (forall kwargs query,
      vs1 FilteredRetriever kwargs query = vs2 FilteredRetriever kwargs query) ->
  vs1 ModuleRetriever (held (parameters w)) (content last_turn) = Ok extra1 ->
  vs2 ModuleRetriever (held (parameters w)) (content last_turn) = Ok extra2 ->
  IndexSearch ModuleRetriever (held (parameters w)) (content last_turn)
    ∈ trace (chain_on vs1 (history ++ [last_turn]) w).2
  /\ chain_on vs1 (history ++ [last_turn]) w
     = chain_on vs2 (history ++ [last_turn]) w.
Proof.
  intros Hfiltered Hextra1 Hextra2.
  split.
  - rewrite chain_general_snoc.
    destruct search_first, history as [|first rest]; run_general;
      cbn [List.length Nat.ltb Nat.leb]; simpl_chain;
      try (destruct (model (query_rewrite_prompt _ _)) as [rewritten|e];
           simpl_chain);
      rewrite ?Hextra1; simpl_chain;
      repeat destruct_reply;
      repeat first [apply elem_of_snoc_here | apply elem_of_snoc_earlier].
  - rewrite !chain_general_snoc.
    destruct search_first, history as [|first rest]; run_general;
      cbn [List.length Nat.ltb Nat.leb]; simpl_chain;
      try (destruct (model (query_rewrite_prompt _ _)) as [rewritten|e];
           simpl_chain);
      rewrite ?Hextra1, ?Hextra2; simpl_chain;
      repeat first [rewrite Hfiltered | destruct_reply]; reflexivity.
Qed.

End ModuleRetriever.

Lemma module_search_leaves_run_unchanged_sample :
  let run extra :=
    chain_general (Sample.model "cancer vaccines") (Sample.vs_index extra)
                  Sample.chunk_template Sample.llm_system_prompt_template
                  "title" Sample.str_of_messages
                  (fun _ => parameters Sample.loaded) true
                  (extract_chat_history Sample.multi_turn
                   ++ [ {| role := "user"; content := "How does it scale?" |} ])
                  Sample.loaded in
  IndexSearch ModuleRetriever (parameters Sample.loaded) "How does it scale?"
    ∈ trace (run [Sample.chunk]).2
  /\ run [Sample.chunk] = run [].
Proof.
  intros run.
  apply (module_search_leaves_run_unchanged
           (Sample.model "cancer vaccines") Sample.chunk_template
           Sample.llm_system_prompt_template "title" Sample.str_of_messages
           (fun _ => parameters Sample.loaded) true
           (Sample.vs_index [Sample.chunk]) (Sample.vs_index [])
           (extract_chat_history Sample.multi_turn)
           {| role := "user"; content := "How does it scale?" |}
           Sample.loaded [Sample.chunk] []).
  - intros kwargs query. reflexivity.
  - reflexivity.
  - reflexivity.
Defined.

(** C9 fails on the code where it says unfiltered.  The module-level
    retriever searches with the configured parameters as they are: when
    these carry a filter, so does that search, whether the retriever
    keeps the parameters by reference or holds a copy of them. *)
Lemma module_search_filtered_by_configuration :
  let configured := {| trace := []; parameters := Sample.configured_filter |} in
  let run held :=
    chain_general (Sample.model "cancer vaccines") (Sample.vs_index [])
                  Sample.chunk_template Sample.llm_system_prompt_template
                  "title" Sample.str_of_messages held false
                  Sample.single_turn configured in
  Sample.configured_filter !! "filter"
  = Some (Mapping {[ "topic" := "stem cell therapy" ]})
  /\ (run (fun kwargs => kwargs)).1 = Ok Sample.answer
  /\ trace (run (fun kwargs => kwargs)).2 !! 0
     = Some (IndexSearch ModuleRetriever Sample.configured_filter "What is spark?")
  /\ (run (fun _ => Sample.configured_filter)).1 = Ok Sample.answer
  /\ trace (run (fun _ => Sample.configured_filter)).2 !! 0
     = Some (IndexSearch ModuleRetriever Sample.configured_filter "What is spark?").
Proof. vm_compute. done. Qed.

Lemma rewritten_query_feeds_classifier_and_search_sample :
  let first := {| role := "user"; content := "What is spark?" |} in
  let second := {| role := "assistant";
                   content := "Spark is a distributed compute engine." |} in
  let last_turn := {| role := "user"; content := "How does it scale?" |} in
  let rewrite_prompt :=
    query_rewrite_prompt Sample.str_of_messages
      {| Parsed.question := content last_turn;
         Parsed.chat_history := [first; second];
         Parsed.formatted_chat_history := omap message_of_turn [first; second] |} in
  exists later : list event,
    trace (chain_general (Sample.model "cancer vaccines")
                         (Sample.vs_index [Sample.chunk])
                         Sample.chunk_template Sample.llm_system_prompt_template
                         "title" Sample.str_of_messages
                         (fun kwargs => kwargs) true
                         [first; second; last_turn] Sample.loaded).2
    = (trace Sample.loaded
       ++ [ IndexSearch ModuleRetriever (parameters Sample.loaded)
                        (content last_turn);
            ModelCall rewrite_prompt ]
       ++ [ ModelCall (get_topic_prompt Sample.rewritten);
            Printed ("filter_value: " +:+ "cancer vaccines" +:+ "
");
            IndexSearch FilteredRetriever
              (<["filter" := Mapping {["topic" := PyStr.strip "cancer vaccines"]}]>
                 (parameters Sample.loaded))
              Sample.rewritten ]
       ++ later)%list.
Proof.
  intros first second last_turn rewrite_prompt.
  apply (rewritten_query_feeds_classifier_and_search
           (Sample.model "cancer vaccines") (Sample.vs_index [Sample.chunk])
           Sample.chunk_template Sample.llm_system_prompt_template "title"
           Sample.str_of_messages (fun kwargs => kwargs) true
           first [second] last_turn
           Sample.loaded Sample.rewritten "cancer vaccines" [Sample.chunk]);
    reflexivity.
Defined.

Lemma multi_turn_request_calls_sample :
  let first := {| role := "user"; content := "What is spark?" |} in
  let second := {| role := "assistant";
                   content := "Spark is a distributed compute engine." |} in
  let last_turn := {| role := "user"; content := "How does it scale?" |} in
  let model := Sample.model "cancer vaccines" in
  let rewrite_prompt :=
    query_rewrite_prompt Sample.str_of_messages
      {| Parsed.question := content last_turn;
         Parsed.chat_history := [first; second];
         Parsed.formatted_chat_history := omap message_of_turn [first; second] |} in
  let run :=
    chain_general model (Sample.vs_index []) Sample.chunk_template
                  Sample.llm_system_prompt_template "title"
                  Sample.str_of_messages (fun kwargs => kwargs) true
                  [first; second; last_turn] Sample.loaded in
  exists (rewritten reply system : string),
    let kwargs :=
      <["filter" := Mapping {["topic" := PyStr.strip reply]}]>
        (parameters Sample.loaded) in
    let final :=
      ChatPromptValue
        (SystemMessage system
         :: omap message_of_turn [first; second]
         ++ [HumanMessage (content last_turn)]) in
    model rewrite_prompt = Ok rewritten
    /\ model (get_topic_prompt rewritten) = Ok reply
    /\ model final = Ok Sample.answer
    /\ run.2
       = {| trace := trace Sample.loaded
              ++ [ IndexSearch ModuleRetriever (parameters Sample.loaded)
                               (content last_turn);
                   ModelCall rewrite_prompt ]
              ++ [ ModelCall (get_topic_prompt rewritten);
                   Printed ("filter_value: " +:+ reply +:+ "
");
                   IndexSearch FilteredRetriever kwargs rewritten;
                   ModelCall final ];
            parameters := kwargs |}.
Proof.
  intros first second last_turn model rewrite_prompt run.
  apply (multi_turn_request_calls
           model (Sample.vs_index []) Sample.chunk_template
           Sample.llm_system_prompt_template "title" Sample.str_of_messages
           (fun kwargs => kwargs) true
           first [second] last_turn Sample.loaded run.2 Sample.answer).
  vm_compute. reflexivity.
Defined.

Lemma module_search_failure_fails_request_sample :
  let last_turn := {| role := "user"; content := "How does it scale?" |} in
  let history := extract_chat_history Sample.multi_turn in
  let rewrite_prompt :=
    query_rewrite_prompt Sample.str_of_messages
      {| Parsed.question := content last_turn;
         Parsed.chat_history := history;
         Parsed.formatted_chat_history := omap message_of_turn history |} in
  chain_general (Sample.model "cancer vaccines") Outage.vs_index
                Sample.chunk_template Sample.llm_system_prompt_template "title"
                Sample.str_of_messages (fun _ => parameters Sample.loaded) true
                (history ++ [last_turn]) Sample.loaded
  = (Err (match history, Sample.model "cancer vaccines" rewrite_prompt with
          | _ :: _, Err e0 => e0
          | _, _ => Outage.timeout
          end),
     {| trace := trace Sample.loaded
                 ++ match history with
                    | [] => [IndexSearch ModuleRetriever (parameters Sample.loaded)
                                         (content last_turn)]
                    | _ :: _ =>
                        [ IndexSearch ModuleRetriever (parameters Sample.loaded)
                                      (content last_turn);
                          ModelCall rewrite_prompt ]
                    end;
        parameters := parameters Sample.loaded |}).
Proof.
  intros last_turn history rewrite_prompt.
  apply (module_search_failure_fails_request
           (Sample.model "cancer vaccines") Outage.vs_index Sample.chunk_template
           Sample.llm_system_prompt_template "title" Sample.str_of_messages
           (fun _ => parameters Sample.loaded) true
           history last_turn Sample.loaded Outage.timeout).
  reflexivity.
Defined.

Lemma rewriting_failure_fails_request_sample :
  let first := {| role := "user"; content := "What is spark?" |} in
  let last_turn := {| role := "user"; content := "How does it scale?" |} in
  let rewrite_prompt :=
    query_rewrite_prompt Sample.str_of_messages
      {| Parsed.question := content last_turn;
         Parsed.chat_history := [first];
         Parsed.formatted_chat_history := omap message_of_turn [first] |} in
  chain_general Outage.model (Sample.vs_index [Sample.chunk])
                Sample.chunk_template Sample.llm_system_prompt_template "title"
                Sample.str_of_messages (fun kwargs => kwargs) true
                [first; last_turn] Sample.loaded
  = (Err Outage.timeout,
     {| trace := trace Sample.loaded
                 ++ [ IndexSearch ModuleRetriever (parameters Sample.loaded)
                                  (content last_turn);
                      ModelCall rewrite_prompt ];
        parameters := parameters Sample.loaded |}).
Proof.
  intros first last_turn rewrite_prompt.
  apply (rewriting_failure_fails_request
           Outage.model (Sample.vs_index [Sample.chunk]) Sample.chunk_template
           Sample.llm_system_prompt_template "title" Sample.str_of_messages
           (fun kwargs => kwargs) true
           first [] last_turn Sample.loaded Outage.timeout).
  reflexivity.
Defined.
